(** * Soil classification, seismic mapping and liquefaction check (soil4.py)

    Shallow embedding of the three calculation stages of [src/soil4.py].
    Arithmetic is modelled over the real numbers of the Standard Library;
    soil types and seismic zones are the strings the script uses, and the
    [in] tests on them are substring tests.  Python raises
    [ZeroDivisionError] on a float division by zero: every division whose
    divisor is not a nonzero literal goes through [pdiv], which raises it;
    a dict subscript that misses raises [KeyError]. *)

From Stdlib Require Import Reals Psatz String List Bool ZArith.
Import ListNotations.
Open Scope R_scope.

(** ** Python-level outcomes *)

Inductive py_exc := ZeroDivisionError | KeyError.

Inductive res (A : Type) : Type :=
| Ok (a : A)
| Raise (e : py_exc).
Arguments Ok {A} a.
Arguments Raise {A} e.

Definition res_bind {A B} (m : res A) (k : A -> res B) : res B :=
  match m with Ok a => k a | Raise e => Raise e end.

Notation "x <- m ;; k" := (res_bind m (fun x => k))
  (at level 61, m at next level, right associativity).

(** Python's float division [x / y]. *)
Definition pdiv (x y : R) : res R :=
  if Req_dec_T y 0 then Raise ZeroDivisionError else Ok (x / y).

(** Python's [x ** 0.5]; the script applies it to positive bases only. *)
Definition pow_half (x : R) : R := Rpower x (/ 2).

(** Python comparisons as booleans. *)
Definition py_gt (x y : R) : bool := if Rlt_dec y x then true else false.
Definition py_lt (x y : R) : bool := if Rlt_dec x y then true else false.
Definition py_eq (x y : R) : bool := if Req_dec_T x y then true else false.

(** Python's [s1 in s2] on strings: substring test. *)
Fixpoint str_in (s1 s2 : string) : bool :=
  if String.prefix s1 s2 then true
  else match s2 with
       | EmptyString => false
       | String _ s2' => str_in s1 s2'
       end.

(** ** Step 1: soil classification (lines 40-65) *)

Definition CL_label : string := "CL (Clay with low plasticity)".
Definition ML_label : string := "ML (Silt with low plasticity)".
Definition SM_label : string := "SM (Silty Sand or Sandy Silt)".
Definition SW_label : string := "SW (Well-Graded Sand)".
Definition SP_label : string := "SP (Poorly graded Sand)".

Definition err_ll_pl : string :=
  "Liquid Limit should be greater than or equal to Plastic Limit.".
Definition err_grain : string :=
  "D10, D30, and D60 must all be greater than 0.".

(** Outcome of pressing "Classify Soil": an [st.error] message, or the
    [soil_type] stored in the session state. *)
Inductive classify_outcome :=
| ClassifyError (msg : string)
| Classified (soil_type : string).

Definition classify (ll pl fines d10 d30 d60 : R) : classify_outcome :=
  if py_lt ll pl then ClassifyError err_ll_pl
  else if py_eq d10 0 || py_eq d30 0 || py_eq d60 0 then ClassifyError err_grain
  else
    let PI := ll - pl in
    let cu := d60 / d10 in
    let cc := (d30 ^ 2) / (d10 * d60) in
    if py_gt fines 50 then
      (if py_gt PI 7 then Classified CL_label else Classified ML_label)
    else if py_gt fines 12 then Classified SM_label
    else if py_gt cu 4 && (py_lt 1 cc && py_lt cc 3) then Classified SW_label
    else Classified SP_label.

(** The five types the classifier can store. *)
Definition soil_labels : list string :=
  [CL_label; ML_label; SM_label; SW_label; SP_label].

(** The rule list of the specification (section 4.1), read literally:
    first match wins, strict comparisons. *)
Definition spec_rules (ll pl fines d10 d30 d60 : R) : string :=
  let PI := ll - pl in
  let Cu := d60 / d10 in
  let Cc := d30 ^ 2 / (d10 * d60) in
  if Rlt_dec 50 fines then
    (if Rlt_dec 7 PI then CL_label else ML_label)
  else if Rlt_dec 12 fines then SM_label
  else if Rlt_dec 4 Cu then
    (if Rlt_dec 1 Cc then (if Rlt_dec Cc 3 then SW_label else SP_label)
     else SP_label)
  else SP_label.

(** ** Step 2: peak ground acceleration (lines 76-98) *)

Definition seismic_zone_of (soil_type : string) : string :=
  if str_in "CL" soil_type then "Zone III"
  else if str_in "ML" soil_type || str_in "SM" soil_type then "Zone IV"
  else "Zone II".

(** The dict [zone_factors], in insertion order. *)
Definition zone_factors : list (string * R) :=
  [("Zone II"%string, 0.10); ("Zone III"%string, 0.16); ("Zone IV"%string, 0.24); ("Zone V"%string, 0.36)].

(** Its keys. *)
Definition zone_names : list string :=
  ["Zone II"; "Zone III"; "Zone IV"; "Zone V"]%string.

(** Python's [d[k]] on a dict with string keys. *)
Fixpoint dict_get (d : list (string * R)) (k : string) : res R :=
  match d with
  | [] => Raise KeyError
  | (k', v) :: d' => if String.eqb k k' then Ok v else dict_get d' k
  end.

Definition amplification (soil_type : string) : R :=
  if str_in "CL" soil_type || str_in "ML" soil_type then 1.5
  else if str_in "SM" soil_type then 1.2
  else 1.0.

(** [amax = Z * S * 9.81] and [amax_g = amax / 9.81]. *)
Definition ground_motion (Z S : R) : R * R :=
  let amax := Z * S * 9.81 in (amax, amax / 9.81).

(** The whole of step 2: zone, [amax] and [amax_g] for a stored soil type. *)
Definition step2 (soil_type : string) : res (string * R * R) :=
  let seismic_zone := seismic_zone_of soil_type in
  Z <- dict_get zone_factors seismic_zone ;;
  let S := amplification soil_type in
  let '(amax, amax_g) := ground_motion Z S in
  Ok (seismic_zone, amax, amax_g).

(** ** Step 3: liquefaction check (lines 118-148) *)

(** The values the script displays under "Results". *)
Record liq_result := {
  r_sigma_v : R;
  r_sigma_eff : R;
  r_rd : R;
  r_Cn : R;
  r_N1_60 : R;
  r_CSR : R;
  r_CRR : R;
  r_FS : R;
  r_likely : bool
}.

Inductive step3_outcome :=
| Results (r : liq_result)
| InvalidEffectiveStress.

Definition sigma_v (depth gamma : R) : R := gamma * depth.

Definition sigma_eff (depth gamma gw_depth : R) : R :=
  sigma_v depth gamma
  - 9.81 * (if Rlt_dec gw_depth depth then depth - gw_depth else 0).

Definition rd_of (depth : R) : R := Rmax (1.0 - 0.00765 * depth) 0.5.

(** Line 124: [Cn = (100 / sv_eff) ** 0.5 if sv_eff > 0 else 0]. *)
Definition Cn_of (sv_eff : R) : res R :=
  if Rlt_dec 0 sv_eff then (q <- pdiv 100 sv_eff ;; Ok (pow_half q)) else Ok 0.

Definition evaluate (depth gamma gw_depth : R) (n_value : Z) (amax_g : R)
    : res step3_outcome :=
  let sv := sigma_v depth gamma in
  let sv_eff := sigma_eff depth gamma gw_depth in
  let rd := rd_of depth in
  Cn <- Cn_of sv_eff ;;
  let N1_60 := IZR n_value * Cn in
  if Rlt_dec 0 sv_eff then
    ratio <- pdiv sv sv_eff ;;
    let CSR := 0.65 * amax_g * ratio * rd in
    a <- pdiv 1 (34 - N1_60) ;;
    c <- pdiv 50 ((10 * N1_60 + 45) ^ 2) ;;
    let CRR_7_5 := a + N1_60 / 135 + c - 1 / 200 in
    let CRR := CRR_7_5 in
    FS <- pdiv CRR CSR ;;
    Ok (Results {| r_sigma_v := sv; r_sigma_eff := sv_eff; r_rd := rd;
                   r_Cn := Cn; r_N1_60 := N1_60; r_CSR := CSR; r_CRR := CRR;
                   r_FS := FS; r_likely := py_lt FS 1 |})
  else Ok InvalidEffectiveStress.

(** Step 3 with its advisory: the warning of line 118 is shown when
    [gw_depth > depth]; the computation is [evaluate] either way. *)
Definition step3 (depth gamma gw_depth : R) (n_value : Z) (amax_g : R)
    : bool * res step3_outcome :=
  (py_gt gw_depth depth, evaluate depth gamma gw_depth n_value amax_g).

(** ** Specification-side reading of step 3 (section 4.3, steps 1-10) *)

(** The evaluator as the specification words it: [max(depth - wt, 0)] for
    the submerged depth and [sqrt] for the overburden correction. *)
Definition spec_liquefaction (depth unitWeight waterTableDepth : R) (sptN : Z)
    (amaxRatio : R) : liq_result :=
  let sv := unitWeight * depth in
  let sv' := sv - 9.81 * Rmax (depth - waterTableDepth) 0 in
  let rd := Rmax (1.0 - 0.00765 * depth) 0.5 in
  let Cn := sqrt (100 / sv') in
  let N1 := IZR sptN * Cn in
  let CSR := 0.65 * amaxRatio * (sv / sv') * rd in
  let CRR := 1 / (34 - N1) + N1 / 135 + 50 / (10 * N1 + 45) ^ 2 - 1 / 200 in
  let FS := CRR / CSR in
  {| r_sigma_v := sv; r_sigma_eff := sv'; r_rd := rd; r_Cn := Cn;
     r_N1_60 := N1; r_CSR := CSR; r_CRR := CRR; r_FS := FS;
     r_likely := if Rlt_dec FS 1.0 then true else false |}.

(** ** One run of the script: session state and stage gating *)

(** The keys of [st.session_state] the script uses; [None] is an absent key. *)
Record session := mk_session {
  ss_step1_complete : option bool;
  ss_step2_complete : option bool;
  ss_soil_type : option string;
  ss_amax_g : option R
}.

Definition empty_session : session := mk_session None None None None.

Definition set_step1_complete (b : bool) (s : session) : session :=
  mk_session (Some b) (ss_step2_complete s) (ss_soil_type s) (ss_amax_g s).
Definition set_step2_complete (b : bool) (s : session) : session :=
  mk_session (ss_step1_complete s) (Some b) (ss_soil_type s) (ss_amax_g s).
Definition set_soil_type (t : string) (s : session) : session :=
  mk_session (ss_step1_complete s) (ss_step2_complete s) (Some t) (ss_amax_g s).
Definition set_amax_g (a : R) (s : session) : session :=
  mk_session (ss_step1_complete s) (ss_step2_complete s) (ss_soil_type s) (Some a).

(** What the widgets return on this run: the two buttons and the inputs. *)
Record form := mk_form {
  reset_clicked : bool;
  classify_clicked : bool;
  f_ll : R; f_pl : R; f_fines : R;
  f_d10 : R; f_d30 : R; f_d60 : R;
  f_depth : R; f_gamma : R; f_gw_depth : R;
  f_n_value : Z
}.

(** The widget bounds of lines 29-37 and 112-115. *)
Definition form_in_range (f : form) : Prop :=
  0 <= f_ll f <= 100 /\ 0 <= f_pl f <= 100 /\ 0 <= f_fines f <= 100
  /\ 0.001 <= f_d10 f <= 10 /\ 0.001 <= f_d30 f <= 10 /\ 0.001 <= f_d60 f <= 10
  /\ 0.5 <= f_depth f <= 50 /\ 10 <= f_gamma f <= 25 /\ 0 <= f_gw_depth f <= 50
  /\ (1 <= f_n_value f <= 100)%Z.

(** An exception that ends the run: a Python arithmetic or lookup error,
    or an attribute of [st.session_state] that is not set. *)
Inductive script_exc :=
| PyError (e : py_exc)
| AttributeError (name : string).

(** Reading [st.session_state.name]. *)
Definition read {A} (name : string) (o : option A) : script_exc + A :=
  match o with Some a => inr a | None => inl (AttributeError name) end.

(** What a run shows: the classification message, the step-2 zone and
    accelerations, the advisory of line 119, the step-3 outcome, and the
    exception that ended the run, if any. *)
Record run_output := mk_output {
  out_classify : option classify_outcome;
  out_step2 : option (string * R * R);
  out_warning : bool;
  out_step3 : option step3_outcome;
  out_exc : option script_exc
}.

(** Lines 14-17. *)
Definition init_session (s : session) : session :=
  let s := match ss_step1_complete s with
           | None => set_step1_complete false s | Some _ => s end in
  match ss_step2_complete s with
  | None => set_step2_complete false s | Some _ => s end.

(** Lines 40-65. *)
Definition stage1 (f : form) (s : session) : session * option classify_outcome :=
  if classify_clicked f then
    match classify (f_ll f) (f_pl f) (f_fines f) (f_d10 f) (f_d30 f) (f_d60 f) with
    | ClassifyError m => (s, Some (ClassifyError m))
    | Classified t => (set_step1_complete true (set_soil_type t s), Some (Classified t))
    end
  else (s, None).

(** Lines 70-101. *)
Definition stage2 (s : session)
    : session * option (string * R * R) * option script_exc :=
  match read "step1_complete" (ss_step1_complete s) with
  | inl e => (s, None, Some e)
  | inr false => (s, None, None)
  | inr true =>
      match read "soil_type" (ss_soil_type s) with
      | inl e => (s, None, Some e)
      | inr t =>
          match step2 t with
          | Raise e => (s, None, Some (PyError e))
          | Ok (z, amax, a) =>
              (set_step2_complete true (set_amax_g a s), Some (z, amax, a), None)
          end
      end
  end.

(** Lines 106-148.  [st.session_state.amax_g] is read at line 128 only,
    inside [if sv_eff > 0]; when it is set, that branch is [evaluate]. *)
Definition stage3 (f : form) (s : session)
    : bool * option step3_outcome * option script_exc :=
  match read "step2_complete" (ss_step2_complete s) with
  | inl e => (false, None, Some e)
  | inr false => (false, None, None)
  | inr true =>
      let warn := py_gt (f_gw_depth f) (f_depth f) in
      match ss_amax_g s with
      | Some a =>
          match evaluate (f_depth f) (f_gamma f) (f_gw_depth f) (f_n_value f) a with
          | Ok o => (warn, Some o, None)
          | Raise e => (warn, None, Some (PyError e))
          end
      | None =>
          if Rlt_dec 0 (sigma_eff (f_depth f) (f_gamma f) (f_gw_depth f))
          then (warn, None, Some (AttributeError "amax_g"))
          else (warn, Some InvalidEffectiveStress, None)
      end
  end.

(** The script from line 13 on; an exception in step 2 ends the run. *)
Definition run_body (s0 : session) (f : form) : session * run_output :=
  let s1 := init_session s0 in
  let '(s2, oc) := stage1 f s1 in
  let '(s3, o2, e2) := stage2 s2 in
  match e2 with
  | Some e => (s3, mk_output oc o2 false None (Some e))
  | None =>
      let '(w, o3, e3) := stage3 f s3 in
      (s3, mk_output oc o2 w o3 e3)
  end.

(** The widgets on the rerun triggered by [st.rerun()]: both buttons read
    [False]; the other inputs are not used before step 1 succeeds. *)
Definition release_buttons (f : form) : form :=
  mk_form false false (f_ll f) (f_pl f) (f_fines f) (f_d10 f) (f_d30 f) (f_d60 f)
    (f_depth f) (f_gamma f) (f_gw_depth f) (f_n_value f).

(** A whole run, lines 8-148: the reset button deletes every key and
    reruns the script. *)
Definition run (s : session) (f : form) : session * run_output :=
  if reset_clicked f then run_body empty_session (release_buttons f)
  else run_body s f.

(** The session invariant: a set step-1 flag comes with a stored soil type
    of the classifier, a set step-2 flag with a stored [amax_g] of step 2. *)
Definition amax_values : list R := [0.10; 0.24; 0.288; 0.36].

Definition session_inv (s : session) : Prop :=
  (ss_step1_complete s = Some true ->
   exists t, ss_soil_type s = Some t /\ In t soil_labels)
  /\ (ss_step2_complete s = Some true ->
      ss_step1_complete s = Some true
      /\ exists a, ss_amax_g s = Some a /\ In a amax_values).

(** Both step flags are set (lines 14-17 have run). *)
Definition flags_set (s : session) : Prop :=
  (exists b, ss_step1_complete s = Some b) /\ (exists b, ss_step2_complete s = Some b).

(** Sample values used to exercise runs: a session after classifying a CL
    sample, and forms without a button press (the singular profile of
    depth 2.5 m, unit weight 10, water table 2.5 m, N = 17) and with the
    classify button pressed on LL < PL. *)
Definition classified_session : session :=
  mk_session (Some true) (Some true) (Some CL_label) (Some 0.24).
Definition singular_form : form :=
  mk_form false false 40 20 60 0.01 0.05 0.2 2.5 10 2.5 17.
Definition classify_form : form :=
  mk_form false true 40 20 60 0.01 0.05 0.2 5 18 2 10.
Definition bad_limits_form : form :=
  mk_form false true 10 20 60 0.01 0.05 0.2 5 18 2 10.

(** ** Proof tools *)

(** Split on every real comparison the goal still branches on. *)
Ltac case_R :=
  repeat match goal with
  | |- context [Rlt_dec ?a ?b] => destruct (Rlt_dec a b)
  | |- context [Req_dec_T ?a ?b] => destruct (Req_dec_T a b)
  | _ : context [Rlt_dec ?a ?b] |- _ => destruct (Rlt_dec a b)
  | _ : context [Req_dec_T ?a ?b] |- _ => destruct (Req_dec_T a b)
  end; simpl in *.

(** Split syntactic conjunctions only, without unfolding definitions. *)
Ltac split_and := repeat match goal with |- _ /\ _ => split end.

Ltac close_R := first [ reflexivity | exfalso; lra | lra ].

(** ** Classification lemmas *)

Lemma classify_in_labels ll pl fines d10 d30 d60 t :
  classify ll pl fines d10 d30 d60 = Classified t -> In t soil_labels.
Proof.
  unfold classify, py_lt, py_gt, py_eq; case_R; intro H; inversion H; subst;
    unfold soil_labels; simpl; tauto.
Qed.


(** ** Step 2 lemmas *)

Lemma step2_CL :
  step2 CL_label = Ok ("Zone III"%string, 0.16 * 1.5 * 9.81, 0.16 * 1.5 * 9.81 / 9.81).
Proof. reflexivity. Qed.

Lemma step2_ML :
  step2 ML_label = Ok ("Zone IV"%string, 0.24 * 1.5 * 9.81, 0.24 * 1.5 * 9.81 / 9.81).
Proof. reflexivity. Qed.

Lemma step2_SM :
  step2 SM_label = Ok ("Zone IV"%string, 0.24 * 1.2 * 9.81, 0.24 * 1.2 * 9.81 / 9.81).
Proof. reflexivity. Qed.

Lemma step2_SW :
  step2 SW_label = Ok ("Zone II"%string, 0.10 * 1.0 * 9.81, 0.10 * 1.0 * 9.81 / 9.81).
Proof. reflexivity. Qed.

Lemma step2_SP :
  step2 SP_label = Ok ("Zone II"%string, 0.10 * 1.0 * 9.81, 0.10 * 1.0 * 9.81 / 9.81).
Proof. reflexivity. Qed.

Lemma ground_motion_ratio (Z S : R) : ground_motion Z S = (Z * S * 9.81, Z * S).
Proof. unfold ground_motion; f_equal; field; lra. Qed.

Lemma in_soil_labels (t : string) :
  In t soil_labels ->
  t = CL_label \/ t = ML_label \/ t = SM_label \/ t = SW_label \/ t = SP_label.
Proof. unfold soil_labels; simpl; intuition congruence. Qed.

(** ** Step 3 lemmas *)

Lemma sigma_eff_max (depth gamma gw_depth : R) :
  sigma_eff depth gamma gw_depth = gamma * depth - 9.81 * Rmax (depth - gw_depth) 0.
Proof.
  unfold sigma_eff, sigma_v, Rmax.
  destruct (Rlt_dec gw_depth depth), (Rle_dec (depth - gw_depth) 0); lra.
Qed.

Lemma rd_of_ge (depth : R) : 0.5 <= rd_of depth.
Proof. unfold rd_of; apply Rmax_r. Qed.

Lemma pdiv_ok (x y : R) : y <> 0 -> pdiv x y = Ok (x / y).
Proof. intro H; unfold pdiv; destruct (Req_dec_T y 0); [contradiction | reflexivity]. Qed.

Lemma pdiv_zero (x : R) : pdiv x 0 = Raise ZeroDivisionError.
Proof. unfold pdiv; destruct (Req_dec_T 0 0); [reflexivity | contradiction]. Qed.

Lemma Cn_of_pos (sv_eff : R) : 0 < sv_eff -> Cn_of sv_eff = Ok (sqrt (100 / sv_eff)).
Proof.
  intro H; unfold Cn_of; destruct (Rlt_dec 0 sv_eff); [| contradiction].
  rewrite pdiv_ok by lra; simpl; unfold pow_half.
  rewrite Rpower_sqrt; [reflexivity |].
  apply Rdiv_lt_0_compat; lra.
Qed.

Lemma Cn_of_nonpos (sv_eff : R) : sv_eff <= 0 -> Cn_of sv_eff = Ok 0.
Proof. intro H; unfold Cn_of; destruct (Rlt_dec 0 sv_eff); [lra | reflexivity]. Qed.

Lemma sqrt_4 : sqrt 4 = 2.
Proof.
  replace 4 with (2 * 2) by lra.
  apply sqrt_square; lra.
Qed.

(** With [sv_eff > 0], the part of [evaluate] after [Cn]: [N1_60 = 34]
    raises at [1 / (34 - N1_60)], otherwise a zero [CSR] raises at
    [CRR / CSR], otherwise the results are shown. *)
Lemma evaluate_pos (depth gamma gw_depth : R) (n_value : Z) (amax_g : R) :
  let sv := sigma_v depth gamma in
  let sv_eff := sigma_eff depth gamma gw_depth in
  let N1 := IZR n_value * sqrt (100 / sv_eff) in
  let CSR := 0.65 * amax_g * (sv / sv_eff) * rd_of depth in
  let CRR := 1 / (34 - N1) + N1 / 135 + 50 / (10 * N1 + 45) ^ 2 - 1 / 200 in
  0 < sv_eff -> (1 <= n_value)%Z ->
  evaluate depth gamma gw_depth n_value amax_g =
    if Req_dec_T (34 - N1) 0 then Raise ZeroDivisionError
    else if Req_dec_T CSR 0 then Raise ZeroDivisionError
    else Ok (Results {| r_sigma_v := sv; r_sigma_eff := sv_eff; r_rd := rd_of depth;
                        r_Cn := sqrt (100 / sv_eff); r_N1_60 := N1; r_CSR := CSR;
                        r_CRR := CRR; r_FS := CRR / CSR; r_likely := py_lt (CRR / CSR) 1 |}).
Proof.
  intros sv sv_eff N1 CSR CRR Hs Hn.
  assert (HN1 : 0 <= N1).
  { unfold N1; apply Rmult_le_pos; [apply IZR_le; lia | apply sqrt_pos]. }
  unfold evaluate; fold sv sv_eff.
  rewrite (Cn_of_pos sv_eff Hs); cbn [res_bind]; fold N1.
  destruct (Rlt_dec 0 sv_eff); [| contradiction].
  rewrite pdiv_ok by lra; cbn [res_bind].
  destruct (Req_dec_T (34 - N1) 0) as [E | E].
  - rewrite E, pdiv_zero; reflexivity.
  - rewrite pdiv_ok by exact E; cbn [res_bind].
    rewrite pdiv_ok by (apply pow_nonzero; lra); cbn [res_bind].
    fold CSR. unfold CRR.
    destruct (Req_dec_T CSR 0) as [C | C].
    + rewrite C, pdiv_zero; reflexivity.
    + rewrite pdiv_ok by exact C; reflexivity.
Qed.

Lemma sigma_eff_le (depth gamma gw_depth : R) :
  sigma_eff depth gamma gw_depth <= sigma_v depth gamma.
Proof. unfold sigma_eff; destruct (Rlt_dec gw_depth depth); lra. Qed.

Lemma csr_pos (depth gamma gw_depth amax_g : R) :
  0 < sigma_eff depth gamma gw_depth -> 0 < amax_g ->
  0 < 0.65 * amax_g * (sigma_v depth gamma / sigma_eff depth gamma gw_depth) * rd_of depth.
Proof.
  intros Hs Ha.
  pose proof (sigma_eff_le depth gamma gw_depth) as Hle.
  pose proof (rd_of_ge depth) as Hrd.
  assert (0 < sigma_v depth gamma / sigma_eff depth gamma gw_depth)
    by (apply Rdiv_lt_0_compat; lra).
  apply Rmult_lt_0_compat; [apply Rmult_lt_0_compat; [| assumption] | lra].
  apply Rmult_lt_0_compat; lra.
Qed.

Lemma csr_nonzero (depth gamma gw_depth amax_g : R) :
  0 < sigma_eff depth gamma gw_depth -> amax_g <> 0 ->
  0.65 * amax_g * (sigma_v depth gamma / sigma_eff depth gamma gw_depth) * rd_of depth <> 0.
Proof.
  intros Hs Ha.
  pose proof (sigma_eff_le depth gamma gw_depth) as Hle.
  pose proof (rd_of_ge depth) as Hrd.
  assert (0 < sigma_v depth gamma / sigma_eff depth gamma gw_depth)
    by (apply Rdiv_lt_0_compat; lra).
  apply Rmult_integral_contrapositive_currified; [| lra].
  apply Rmult_integral_contrapositive_currified; [| lra].
  apply Rmult_integral_contrapositive_currified; lra.
Qed.

(** The profile of scenario C of the specification with the water table
    at the layer's base: [sv_eff = 25], hence [Cn = 2]. *)
Lemma sigma_eff_sample : sigma_eff 2.5 10 2.5 = 25.
Proof. unfold sigma_eff, sigma_v; destruct (Rlt_dec 2.5 2.5); lra. Qed.

Lemma sqrt_sample : sqrt (100 / sigma_eff 2.5 10 2.5) = 2.
Proof.
  rewrite sigma_eff_sample; replace (100 / 25) with 4 by field.
  apply sqrt_4.
Qed.

(** ** Script-run lemmas *)

Lemma step2_on_labels (t : string) :
  In t soil_labels ->
  exists z amax a, step2 t = Ok (z, amax, a) /\ In a amax_values /\ 0 < a.
Proof.
  intro Ht; apply in_soil_labels in Ht.
  destruct Ht as [-> | [-> | [-> | [-> | ->]]]];
    [rewrite step2_CL | rewrite step2_ML | rewrite step2_SM
    | rewrite step2_SW | rewrite step2_SP];
    do 3 eexists; (split; [reflexivity | split; [unfold amax_values; simpl; lra | lra]]).
Qed.

Lemma init_session_inv (s : session) :
  session_inv s -> session_inv (init_session s) /\ flags_set (init_session s).
Proof.
  destruct s as [b1 b2 t a]; unfold session_inv, flags_set, init_session; simpl.
  intros [H1 H2].
  destruct b1 as [b1 |], b2 as [b2 |]; simpl;
    (split; [split; intro E; first [discriminate | apply H1; exact E | apply H2; exact E
                                   | destruct (H2 E) as [X _]; discriminate]
           | split; eexists; reflexivity]).
Qed.

Lemma stage1_inv (f : form) (s : session) :
  session_inv s -> flags_set s ->
  session_inv (fst (stage1 f s)) /\ flags_set (fst (stage1 f s)).
Proof.
  intros Hinv Hfl; unfold stage1.
  destruct (classify_clicked f); [| exact (conj Hinv Hfl)].
  destruct (classify _ _ _ _ _ _) as [m | t] eqn:Hc; [exact (conj Hinv Hfl) |].
  apply classify_in_labels in Hc.
  destruct Hinv as [H1 H2], Hfl as [F1 F2].
  destruct s as [b1 b2 t0 a]; unfold session_inv, flags_set in *; simpl in *.
  split; [split | split; [eexists; reflexivity | exact F2]].
  - intros _; exists t; split; [reflexivity | exact Hc].
  - intro E; split; [reflexivity | apply H2; exact E].
Qed.

Lemma stage2_inv (s : session) :
  session_inv s -> flags_set s ->
  snd (stage2 s) = None
  /\ session_inv (fst (fst (stage2 s))) /\ flags_set (fst (fst (stage2 s)))
  /\ ss_soil_type (fst (fst (stage2 s))) = ss_soil_type s
  /\ ss_step1_complete (fst (fst (stage2 s))) = ss_step1_complete s.
Proof.
  intros Hinv Hfl.
  pose proof Hinv as [H1 H2]; pose proof Hfl as [[b1 F1] [b2 F2]].
  unfold stage2; rewrite F1; simpl.
  destruct b1;
    [| split; [reflexivity | split; [exact Hinv | split; [exact Hfl | split; [reflexivity | exact F1]]]]].
  destruct (H1 F1) as (t & Ht & Hin); rewrite Ht; simpl.
  destruct (step2_on_labels t Hin) as (z & amax & a & E & Ha & _); rewrite E; simpl.
  destruct s as [b1' b2' t' a']; simpl in *; subst.
  split; [reflexivity |].
  split; [split |].
  - intros _; exists t; split; [reflexivity | exact Hin].
  - intros _; split; [reflexivity | exists a; split; [reflexivity | exact Ha]].
  - split; [split; eexists; reflexivity | split; reflexivity].
Qed.

Lemma evaluate_raise_singular (depth gamma gw_depth : R) (n_value : Z) (a : R) (e : py_exc) :
  0 < a -> (1 <= n_value)%Z ->
  evaluate depth gamma gw_depth n_value a = Raise e ->
  e = ZeroDivisionError /\ 0 < sigma_eff depth gamma gw_depth
  /\ IZR n_value * sqrt (100 / sigma_eff depth gamma gw_depth) = 34.
Proof.
  intros Ha Hn He.
  destruct (Rlt_dec 0 (sigma_eff depth gamma gw_depth)) as [Hs | Hs].
  - rewrite evaluate_pos in He by assumption.
    destruct (Req_dec_T _ 0) as [E | _].
    + inversion He; repeat split; [assumption | lra].
    + destruct (Req_dec_T _ 0) as [C | _]; [| discriminate].
      pose proof (csr_pos depth gamma gw_depth a Hs Ha); lra.
  - unfold evaluate in He; rewrite Cn_of_nonpos in He by lra; cbn [res_bind] in He.
    destruct (Rlt_dec 0 (sigma_eff depth gamma gw_depth)); [contradiction | discriminate].
Qed.

Lemma stage3_exc (f : form) (s : session) (e : script_exc) :
  session_inv s -> flags_set s -> (1 <= f_n_value f)%Z ->
  snd (stage3 f s) = Some e ->
  e = PyError ZeroDivisionError
  /\ 0 < sigma_eff (f_depth f) (f_gamma f) (f_gw_depth f)
  /\ IZR (f_n_value f) * sqrt (100 / sigma_eff (f_depth f) (f_gamma f) (f_gw_depth f)) = 34.
Proof.
  intros [H1 H2] [[b1 F1] [b2 F2]] Hn; unfold stage3; rewrite F2; simpl.
  destruct b2; [| discriminate].
  destruct (H2 F2) as [_ (a & Ha & Hin)]; rewrite Ha.
  assert (Hpos : 0 < a) by (unfold amax_values in Hin; simpl in Hin; lra).
  destruct (evaluate _ _ _ _ a) as [o | e'] eqn:He; simpl; [discriminate |].
  intro E; inversion E; subst.
  destruct (evaluate_raise_singular _ _ _ _ _ _ Hpos Hn He) as (-> & Hs & HN).
  repeat split; assumption.
Qed.

Lemma sigma_eff_form_pos (depth gamma gw_depth : R) :
  0 < depth -> 10 <= gamma -> 0 <= gw_depth -> 0 < sigma_eff depth gamma gw_depth.
Proof.
  intros Hd Hg Hw; unfold sigma_eff, sigma_v.
  destruct (Rlt_dec gw_depth depth); nra.
Qed.

Lemma evaluate_not_invalid (depth gamma gw_depth : R) (n_value : Z) (a : R) :
  0 < sigma_eff depth gamma gw_depth ->
  evaluate depth gamma gw_depth n_value a <> Ok InvalidEffectiveStress.
Proof.
  intro Hs; unfold evaluate; rewrite (Cn_of_pos _ Hs); cbn [res_bind].
  destruct (Rlt_dec 0 _); [| contradiction].
  rewrite pdiv_ok by lra; cbn [res_bind].
  destruct (pdiv 1 _); cbn [res_bind]; [| discriminate].
  destruct (pdiv 50 _); cbn [res_bind]; [| discriminate].
  destruct (pdiv _ _); cbn [res_bind]; discriminate.
Qed.

Lemma run_body_state (s : session) (f : form) :
  fst (run_body s f) = fst (fst (stage2 (fst (stage1 f (init_session s))))).
Proof.
  unfold run_body.
  destruct (stage1 f (init_session s)) as [s2 oc].
  destruct (stage2 s2) as [[s3 o2] [e |]] eqn:E2; simpl; rewrite E2; [reflexivity |].
  destruct (stage3 f s3) as [[w o3] e3]; reflexivity.
Qed.

Lemma run_body_shape (s : session) (f : form) :
  session_inv s ->
  exists s2 s3 oc o2,
    stage1 f (init_session s) = (s2, oc) /\ stage2 s2 = (s3, o2, None)
    /\ session_inv s3 /\ flags_set s3
    /\ run_body s f = (s3, mk_output oc o2 (fst (fst (stage3 f s3)))
                                     (snd (fst (stage3 f s3))) (snd (stage3 f s3))).
Proof.
  intro Hinv.
  destruct (init_session_inv s Hinv) as [Hi Hf].
  destruct (stage1_inv f _ Hi Hf) as [Hi1 Hf1].
  destruct (stage2_inv _ Hi1 Hf1) as (He & Hi2 & Hf2 & _).
  destruct (stage1 f (init_session s)) as [s2 oc] eqn:E1; cbn [fst snd] in Hi1, Hf1, He, Hi2, Hf2.
  destruct (stage2 s2) as [[s3 o2] e2] eqn:E2; cbn [fst snd] in Hi1, Hf1, He, Hi2, Hf2; subst e2.
  exists s2, s3, oc, o2; split; [first [reflexivity | exact E1] |].
  split; [first [reflexivity | exact E2] |].
  refine (conj Hi2 (conj Hf2 _)).
  unfold run_body; cbv beta zeta; rewrite E1, E2.
  destruct (stage3 f s3) as [[w o3] e3]; reflexivity.
Qed.

Lemma init_session_keeps (s : session) :
  ss_soil_type (init_session s) = ss_soil_type s
  /\ ss_amax_g (init_session s) = ss_amax_g s
  /\ (ss_step1_complete s = Some true -> ss_step1_complete (init_session s) = Some true)
  /\ (ss_step2_complete s = Some true -> ss_step2_complete (init_session s) = Some true).
Proof.
  destruct s as [[b1 |] [b2 |] t a]; simpl; split_and;
    first [reflexivity | intro E; first [exact E | discriminate]].
Qed.

Lemma stage1_keeps (f : form) (s : session) :
  ss_step2_complete (fst (stage1 f s)) = ss_step2_complete s
  /\ (ss_step1_complete s = Some true -> ss_step1_complete (fst (stage1 f s)) = Some true)
  /\ ((classify_clicked f = false \/
       exists m, classify (f_ll f) (f_pl f) (f_fines f) (f_d10 f) (f_d30 f) (f_d60 f)
                 = ClassifyError m) ->
      fst (stage1 f s) = s).
Proof.
  unfold stage1.
  destruct (classify_clicked f).
  - destruct (classify _ _ _ _ _ _) as [m | t].
    + split_and; [reflexivity | intro E; exact E | intros _; reflexivity].
    + split_and; [reflexivity | intros _; reflexivity |].
      intros [E | [m E]]; discriminate.
  - split_and; [reflexivity | intro E; exact E | intros _; reflexivity].
Qed.

Lemma stage2_keeps (s : session) :
  ss_step1_complete (fst (fst (stage2 s))) = ss_step1_complete s
  /\ ss_soil_type (fst (fst (stage2 s))) = ss_soil_type s
  /\ (ss_step2_complete s = Some true ->
      ss_step2_complete (fst (fst (stage2 s))) = Some true).
Proof.
  unfold stage2.
  destruct (ss_step1_complete s) as [[] |] eqn:E1; simpl;
    [| split_and; first [reflexivity | assumption | intro E; exact E]
     | split_and; first [reflexivity | assumption | intro E; exact E]].
  destruct (ss_soil_type s) as [t |] eqn:Et; simpl;
    [| split_and; first [reflexivity | assumption | intro E; exact E]].
  destruct (step2 t) as [[[z amax] a] | e]; simpl;
    split_and; first [reflexivity | assumption | intro E; first [exact E | reflexivity]].
Qed.

Lemma stage3_not_invalid (f : form) (s : session) :
  0 < sigma_eff (f_depth f) (f_gamma f) (f_gw_depth f) ->
  snd (fst (stage3 f s)) <> Some InvalidEffectiveStress.
Proof.
  intro Hs; unfold stage3.
  destruct (ss_step2_complete s) as [[] |]; simpl; try discriminate.
  destruct (ss_amax_g s) as [a |].
  - destruct (evaluate _ _ _ _ a) as [o | e] eqn:He; simpl; [| discriminate].
    intro E; inversion E; subst.
    exact (evaluate_not_invalid _ _ _ _ _ Hs He).
  - destruct (Rlt_dec 0 _); [discriminate | contradiction].
Qed.

Lemma empty_session_inv : session_inv empty_session.
Proof. split; simpl; discriminate. Qed.

(** On a session with the step-1 flag set, step 2 recomputes [amax_g] from
    the stored soil type and leaves both flags set. *)
Lemma stage2_settles (s : session) :
  session_inv s -> flags_set s -> ss_step1_complete s = Some true ->
  exists t z amax a,
    ss_soil_type s = Some t /\ step2 t = Ok (z, amax, a)
    /\ stage2 s = (mk_session (Some true) (Some true) (Some t) (Some a),
                   Some (z, amax, a), None).
Proof.
  intros [H1 _] _ E1.
  destruct (H1 E1) as (t & Ht & Hin).
  destruct (step2_on_labels t Hin) as (z & amax & a & E & _ & _).
  exists t, z, amax, a; split_and; [exact Ht | exact E |].
  destruct s as [b1 b2 t0 a0]; cbn in E1, Ht; subst.
  unfold stage2; cbn -[step2]; rewrite E; reflexivity.
Qed.

(** After any run from a session satisfying the invariant, a set step-1
    flag comes with a set step-2 flag and the [amax_g] that step 2 computes
    for the stored soil type. *)
Lemma run_settled (s0 : session) (f0 : form) :
  session_inv s0 -> ss_step1_complete (fst (run s0 f0)) = Some true ->
  exists t z amax a,
    fst (run s0 f0) = mk_session (Some true) (Some true) (Some t) (Some a)
    /\ step2 t = Ok (z, amax, a).
Proof.
  intros Hinv0.
  assert (Hgen : forall s f, session_inv s ->
            ss_step1_complete (fst (run_body s f)) = Some true ->
            exists t z amax a,
              fst (run_body s f) = mk_session (Some true) (Some true) (Some t) (Some a)
              /\ step2 t = Ok (z, amax, a)).
  { intros s f Hinv E; rewrite run_body_state in *.
    destruct (init_session_inv s Hinv) as [Hi Hf].
    destruct (stage1_inv f _ Hi Hf) as [Hi1 Hf1].
    destruct (stage2_keeps (fst (stage1 f (init_session s)))) as [K1 _].
    rewrite K1 in E.
    destruct (stage2_settles _ Hi1 Hf1 E) as (t & z & amax & a & _ & Et & Es).
    rewrite Es; exists t, z, amax, a; split; [reflexivity | exact Et]. }
  unfold run; destruct (reset_clicked f0).
  - apply Hgen, empty_session_inv.
  - apply Hgen, Hinv0.
Qed.

(** ** Claims *)

(** C1: for a sample with [liquidLimit >= plasticLimit] and positive
    D10, D30, D60, [classify] returns the first matching rule of the
    specification, strict comparisons included; in particular fines of
    exactly 50 lead to SM, SW or SP, fines of exactly 12 to SW or SP, and
    a coarse sample with Cu exactly 4 or Cc exactly 1 or 3 to SP. *)
Theorem classify_first_match (ll pl fines d10 d30 d60 : R)
  (Hll : pl <= ll) (H10 : 0 < d10) (H30 : 0 < d30) (H60 : 0 < d60) :
  classify ll pl fines d10 d30 d60 = Classified (spec_rules ll pl fines d10 d30 d60)
  /\ (fines = 50 ->
      In (spec_rules ll pl fines d10 d30 d60) [SM_label; SW_label; SP_label])
  /\ (fines = 12 ->
      In (spec_rules ll pl fines d10 d30 d60) [SW_label; SP_label])
  /\ (fines <= 12 ->
      d60 / d10 = 4 \/ d30 ^ 2 / (d10 * d60) = 1 \/ d30 ^ 2 / (d10 * d60) = 3 ->
      spec_rules ll pl fines d10 d30 d60 = SP_label).
Proof.
  unfold classify, spec_rules, py_lt, py_gt, py_eq.
  repeat split; intros; case_R; simpl; try tauto; close_R.
Qed.

Lemma classify_first_match_witness :
  (20 <= 40 /\ 0 < 0.01 /\ 0 < 0.05 /\ 0 < 0.2)
  /\ classify 40 20 60 0.01 0.05 0.2 = Classified (spec_rules 40 20 60 0.01 0.05 0.2).
Proof.
  split; [repeat split; lra |].
  assert (H1 : 20 <= 40) by lra. assert (H2 : 0 < 0.01) by lra.
  assert (H3 : 0 < 0.05) by lra. assert (H4 : 0 < 0.2) by lra.
  exact (proj1 (classify_first_match 40 20 60 0.01 0.05 0.2 H1 H2 H3 H4)).
Defined.


(** C8: [classify] shows an error, and stores no soil type, exactly when
    [liquidLimit < plasticLimit] or one of D10, D30, D60 is 0; the message
    names the first violated constraint; every other input yields one of
    the five soil types. *)
Theorem classify_validation (ll pl fines d10 d30 d60 : R) :
  ((exists msg, classify ll pl fines d10 d30 d60 = ClassifyError msg) <->
   (ll < pl \/ d10 = 0 \/ d30 = 0 \/ d60 = 0))
  /\ (ll < pl -> classify ll pl fines d10 d30 d60 = ClassifyError err_ll_pl)
  /\ (pl <= ll -> d10 = 0 \/ d30 = 0 \/ d60 = 0 ->
      classify ll pl fines d10 d30 d60 = ClassifyError err_grain)
  /\ (~ (ll < pl \/ d10 = 0 \/ d30 = 0 \/ d60 = 0) ->
      exists t, classify ll pl fines d10 d30 d60 = Classified t /\ In t soil_labels).
Proof.
  unfold classify, py_lt, py_gt, py_eq.
  repeat split; intros; case_R; simpl;
    repeat match goal with H : exists _, _ |- _ => destruct H end;
    try discriminate; try (eexists; split; [reflexivity | unfold soil_labels; simpl; tauto]);
    try (eexists; reflexivity); try tauto; close_R.
Qed.

Lemma classify_validation_witness :
  20 <= 40 /\ classify 40 20 60 0 0.05 0.2 = ClassifyError err_grain.
Proof.
  assert (H1 : 20 <= 40) by lra.
  assert (H2 : 0 = 0 \/ 0.05 = 0 \/ 0.2 = 0) by (left; reflexivity).
  split; [exact H1 |].
  exact (proj1 (proj2 (proj2 (classify_validation 40 20 60 0 0.05 0.2))) H1 H2).
Defined.


(** C5: the zone mapping sends CL to Zone III, ML and SM to Zone IV, SW and
    SP to Zone II; no soil type the classifier can store is mapped to
    Zone V. *)
Theorem map_zone_table :
  seismic_zone_of CL_label = "Zone III"%string
  /\ seismic_zone_of ML_label = "Zone IV"%string
  /\ seismic_zone_of SM_label = "Zone IV"%string
  /\ seismic_zone_of SW_label = "Zone II"%string
  /\ seismic_zone_of SP_label = "Zone II"%string
  /\ (forall ll pl fines d10 d30 d60 t,
        classify ll pl fines d10 d30 d60 = Classified t ->
        seismic_zone_of t <> "Zone V"%string).
Proof.
  repeat split; try reflexivity.
  intros ll pl fines d10 d30 d60 t Hc.
  apply classify_in_labels, in_soil_labels in Hc.
  destruct Hc as [-> | [-> | [-> | [-> | ->]]]]; discriminate.
Qed.

Lemma map_zone_table_witness :
  classify 40 20 60 0.01 0.05 0.2 = Classified CL_label
  /\ seismic_zone_of CL_label <> "Zone V"%string.
Proof.
  assert (Hc : classify 40 20 60 0.01 0.05 0.2 = Classified CL_label).
  { unfold classify, py_lt, py_gt, py_eq; case_R; first [reflexivity | exfalso; lra]. }
  split; [exact Hc |].
  exact (proj2 (proj2 (proj2 (proj2 (proj2 map_zone_table))))
           40 20 60 0.01 0.05 0.2 CL_label Hc).
Defined.


(** C6: every zone of [zone_factors] has a factor Z (the lookup never
    raises), [amax = Z * S * 9.81] and [amax_g = Z * S] for every S; Zone II
    with S = 1.0 gives 0.10 and Zone IV with S = 1.5 gives 0.36. *)
Theorem ground_motion_exact :
  Forall (fun zone => exists Z, dict_get zone_factors zone = Ok Z /\
            forall S, ground_motion Z S = (Z * S * 9.81, Z * S)) zone_names
  /\ (Z <- dict_get zone_factors "Zone II" ;; Ok (snd (ground_motion Z 1.0)))
      = Ok 0.10
  /\ (Z <- dict_get zone_factors "Zone IV" ;; Ok (snd (ground_motion Z 1.5)))
      = Ok 0.36.
Proof.
  split; [| split].
  - repeat constructor; eexists; (split; [reflexivity | apply ground_motion_ratio]).
  - simpl; f_equal; lra.
  - simpl; f_equal; lra.
Qed.

(** C2: for a profile with [depth > 0], [unitWeight > 0],
    [waterTableDepth >= 0], [sptN >= 1] and every [amaxRatio] step 3 can
    receive, whenever [sv' > 0] and [N1_60 <> 34], [evaluate] shows exactly
    the values of the specification's steps 1-10, and [likely] holds iff
    [FS < 1.0]. Step 3 only reads the [amax_g] stored by step 2, which lies
    in {0.10, 0.24, 0.288, 0.36} (C9, and the session invariant); the theorem
    is stated for every nonzero [amaxRatio], which covers all of them. *)
Theorem evaluate_formulas (depth unitWeight waterTableDepth : R) (sptN : Z)
  (amaxRatio : R)
  (Hd : 0 < depth) (Hu : 0 < unitWeight) (Hwt : 0 <= waterTableDepth)
  (Hn : (1 <= sptN)%Z) (Ha : amaxRatio <> 0)
  (Hs : 0 < r_sigma_eff (spec_liquefaction depth unitWeight waterTableDepth sptN amaxRatio))
  (HN : r_N1_60 (spec_liquefaction depth unitWeight waterTableDepth sptN amaxRatio) <> 34) :
  evaluate depth unitWeight waterTableDepth sptN amaxRatio
    = Ok (Results (spec_liquefaction depth unitWeight waterTableDepth sptN amaxRatio))
  /\ (r_likely (spec_liquefaction depth unitWeight waterTableDepth sptN amaxRatio) = true
      <-> r_FS (spec_liquefaction depth unitWeight waterTableDepth sptN amaxRatio) < 1.0).
Proof.
  cbn [spec_liquefaction r_sigma_eff r_N1_60 r_likely r_FS] in *.
  rewrite <- sigma_eff_max in *.
  split.
  - rewrite evaluate_pos by assumption.
    destruct (Req_dec_T _ 0) as [E | _]; [exfalso; lra |].
    destruct (Req_dec_T _ 0) as [C | _];
      [exfalso; exact (csr_nonzero _ _ _ _ Hs Ha C) |].
    unfold spec_liquefaction; rewrite <- sigma_eff_max.
    unfold py_lt, rd_of, sigma_v; replace 1.0 with 1 by lra; reflexivity.
  - destruct (Rlt_dec _ _); split; intro; first [lra | discriminate | reflexivity].
Qed.

Lemma evaluate_formulas_witness :
  (0 < 5 /\ 0 < 18 /\ 0 <= 2 /\ (1 <= 10)%Z /\ 0.24 <> 0
   /\ 0 < r_sigma_eff (spec_liquefaction 5 18 2 10 0.24)
   /\ r_N1_60 (spec_liquefaction 5 18 2 10 0.24) <> 34)
  /\ evaluate 5 18 2 10 0.24 = Ok (Results (spec_liquefaction 5 18 2 10 0.24)).
Proof.
  assert (Hs : 0 < r_sigma_eff (spec_liquefaction 5 18 2 10 0.24)).
  { cbn [spec_liquefaction r_sigma_eff]; rewrite <- sigma_eff_max.
    unfold sigma_eff, sigma_v; destruct (Rlt_dec 2 5); lra. }
  assert (HN : r_N1_60 (spec_liquefaction 5 18 2 10 0.24) <> 34).
  { cbn [spec_liquefaction r_sigma_eff r_N1_60] in *; rewrite <- sigma_eff_max in *.
    intro E.
    assert (Hq : sqrt (100 / sigma_eff 5 18 2) = 3.4) by lra.
    assert (Hsq : 100 / sigma_eff 5 18 2 = 3.4 * 3.4).
    { rewrite <- Hq; rewrite sqrt_sqrt; [reflexivity |].
      apply Rlt_le, Rdiv_lt_0_compat; lra. }
    unfold sigma_eff, sigma_v in Hsq; destruct (Rlt_dec 2 5); [| lra].
    apply (f_equal (fun x => x * (18 * 5 - 9.81 * (5 - 2)))) in Hsq.
    unfold Rdiv in Hsq; rewrite Rmult_assoc, Rinv_l in Hsq; lra. }
  split; [repeat split; try lra; try lia; assumption |].
  apply (evaluate_formulas 5 18 2 10 0.24); first [lra | lia | assumption].
Defined.

(** C3: whenever [sv' = unitWeight * depth - 9.81 * max(depth -
    waterTableDepth, 0) <= 0], [evaluate] ends in the invalid-stress error
    branch: no result, hence no factor of safety, is shown. *)
Theorem evaluate_invalid_stress (depth unitWeight waterTableDepth : R) (sptN : Z)
  (amaxRatio : R)
  (Hs : unitWeight * depth - 9.81 * Rmax (depth - waterTableDepth) 0 <= 0) :
  evaluate depth unitWeight waterTableDepth sptN amaxRatio = Ok InvalidEffectiveStress.
Proof.
  rewrite <- sigma_eff_max in Hs.
  unfold evaluate; rewrite (Cn_of_nonpos _ Hs); cbn [res_bind].
  destruct (Rlt_dec 0 (sigma_eff depth unitWeight waterTableDepth)); [lra | reflexivity].
Qed.

Lemma evaluate_invalid_stress_witness :
  5 * 1 - 9.81 * Rmax (1 - 0) 0 <= 0
  /\ evaluate 1 5 0 1 0.24 = Ok InvalidEffectiveStress.
Proof.
  assert (H : 5 * 1 - 9.81 * Rmax (1 - 0) 0 <= 0).
  { unfold Rmax; destruct (Rle_dec (1 - 0) 0); lra. }
  split; [exact H | apply (evaluate_invalid_stress 1 5 0 1 0.24); exact H].
Defined.

(** C4 (as amended): the evaluator has no guard for [N1_60 = 34] or
    [CSR = 0] and no error result of its own for them; with [sv' > 0] and
    [sptN >= 1], either condition makes a division raise Python's
    [ZeroDivisionError], so no result is shown. *)
Theorem evaluate_unguarded_division (depth unitWeight waterTableDepth : R) (sptN : Z)
  (amaxRatio : R)
  (Hs : 0 < sigma_eff depth unitWeight waterTableDepth) (Hn : (1 <= sptN)%Z) :
  (IZR sptN * sqrt (100 / sigma_eff depth unitWeight waterTableDepth) = 34 ->
   evaluate depth unitWeight waterTableDepth sptN amaxRatio = Raise ZeroDivisionError)
  /\ (amaxRatio = 0 ->
      evaluate depth unitWeight waterTableDepth sptN amaxRatio = Raise ZeroDivisionError).
Proof.
  rewrite evaluate_pos by assumption.
  split; intro H.
  - destruct (Req_dec_T _ 0) as [_ | E]; [reflexivity | lra].
  - subst amaxRatio.
    destruct (Req_dec_T _ 0) as [_ | _]; [reflexivity |].
    destruct (Req_dec_T _ 0) as [_ | C]; [reflexivity | exfalso; apply C; lra].
Qed.

Lemma evaluate_unguarded_division_witness :
  (0 < sigma_eff 2.5 10 2.5 /\ (1 <= 17)%Z
   /\ IZR 17 * sqrt (100 / sigma_eff 2.5 10 2.5) = 34)
  /\ evaluate 2.5 10 2.5 17 0.24 = Raise ZeroDivisionError.
Proof.
  assert (Hs : 0 < sigma_eff 2.5 10 2.5) by (rewrite sigma_eff_sample; lra).
  assert (HN : IZR 17 * sqrt (100 / sigma_eff 2.5 10 2.5) = 34)
    by (rewrite sqrt_sample; lra).
  split; [repeat split; first [exact Hs | lia | exact HN] |].
  assert (Hn : (1 <= 17)%Z) by lia.
  exact (proj1 (evaluate_unguarded_division 2.5 10 2.5 17 0.24 Hs Hn) HN).
Defined.

(** C4 as stated fails: on the valid profile [depth = 2.5],
    [unitWeight = 10], [waterTableDepth = 2.5], [sptN = 17] with
    [amaxRatio = 0.24], [N1_60 = 34]; the evaluator returns no outcome of its
    own (no distinct NumericDomainError): [1 / (34 - N1_60)] raises
    Python's [ZeroDivisionError]. *)
Lemma evaluate_singular_crr_raises :
  Cn_of (sigma_eff 2.5 10 2.5) = Ok 2 /\ IZR 17 * 2 = 34
  /\ evaluate 2.5 10 2.5 17 0.24 = Raise ZeroDivisionError
  /\ (forall o, evaluate 2.5 10 2.5 17 0.24 <> Ok o).
Proof.
  assert (Hs : 0 < sigma_eff 2.5 10 2.5) by (rewrite sigma_eff_sample; lra).
  assert (E : evaluate 2.5 10 2.5 17 0.24 = Raise ZeroDivisionError).
  { rewrite evaluate_pos by (first [exact Hs | lia]).
    rewrite sqrt_sample.
    destruct (Req_dec_T _ 0) as [_ | C]; [reflexivity | exfalso; apply C; lra]. }
  split; [rewrite Cn_of_pos, sqrt_sample by exact Hs; reflexivity |].
  split; [lra |].
  split; [exact E |].
  intro o; rewrite E; discriminate.
Qed.

(** C7: the effective stress never exceeds the total stress; when the
    water table is at or below the layer ([waterTableDepth >= depth]) they
    are equal; the advisory of step 3 is shown iff [waterTableDepth > depth]
    and the computation is [evaluate] in either case. *)
Theorem stress_invariant (depth unitWeight waterTableDepth : R) (sptN : Z)
  (amaxRatio : R) (Hwt : 0 <= waterTableDepth) :
  sigma_eff depth unitWeight waterTableDepth <= sigma_v depth unitWeight
  /\ (depth <= waterTableDepth ->
      sigma_eff depth unitWeight waterTableDepth = sigma_v depth unitWeight)
  /\ fst (step3 depth unitWeight waterTableDepth sptN amaxRatio)
     = py_gt waterTableDepth depth
  /\ snd (step3 depth unitWeight waterTableDepth sptN amaxRatio)
     = evaluate depth unitWeight waterTableDepth sptN amaxRatio.
Proof.
  split; [apply sigma_eff_le |].
  split; [| split; reflexivity].
  intro H; unfold sigma_eff; destruct (Rlt_dec waterTableDepth depth); lra.
Qed.

Lemma stress_invariant_witness :
  0 <= 6 /\ sigma_eff 5 18 6 = sigma_v 5 18.
Proof.
  split; [lra |].
  assert (Hwt : 0 <= 6) by lra.
  apply (proj1 (proj2 (stress_invariant 5 18 6 10 0.24 Hwt))); lra.
Defined.

(** C9: every soil type the classifier can store goes through step 2
    without error to an [amax_g] in {0.10, 0.24, 0.288, 0.36}, hence
    positive; then, for every profile with [sv' > 0] and [sptN >= 1],
    [CSR > 0], and [evaluate] raises only when [N1_60 = 34]: the division
    [FS = CRR / CSR] never divides by zero. *)
Theorem pipeline_amax_positive (ll pl fines d10 d30 d60 : R) (t : string)
  (Hc : classify ll pl fines d10 d30 d60 = Classified t) :
  exists zone amax amax_g,
    step2 t = Ok (zone, amax, amax_g)
    /\ In amax_g [0.10; 0.24; 0.288; 0.36] /\ 0 < amax_g
    /\ forall depth gamma gw_depth n_value,
         0 < sigma_eff depth gamma gw_depth -> (1 <= n_value)%Z ->
         0 < 0.65 * amax_g * (sigma_v depth gamma / sigma_eff depth gamma gw_depth)
               * rd_of depth
         /\ (forall e, evaluate depth gamma gw_depth n_value amax_g = Raise e ->
             IZR n_value * sqrt (100 / sigma_eff depth gamma gw_depth) = 34).
Proof.
  assert (Hgen : forall a, 0 < a ->
    forall depth gamma gw_depth n_value,
      0 < sigma_eff depth gamma gw_depth -> (1 <= n_value)%Z ->
      0 < 0.65 * a * (sigma_v depth gamma / sigma_eff depth gamma gw_depth) * rd_of depth
      /\ (forall e, evaluate depth gamma gw_depth n_value a = Raise e ->
          IZR n_value * sqrt (100 / sigma_eff depth gamma gw_depth) = 34)).
  { intros a Ha depth gamma gw_depth n_value Hs Hn.
    pose proof (csr_pos depth gamma gw_depth a Hs Ha) as Hcsr.
    split; [exact Hcsr |].
    intros e He; rewrite evaluate_pos in He by assumption.
    destruct (Req_dec_T _ 0) as [E | _]; [lra |].
    destruct (Req_dec_T _ 0) as [C | _]; [lra | discriminate]. }
  apply classify_in_labels, in_soil_labels in Hc.
  destruct Hc as [-> | [-> | [-> | [-> | ->]]]];
    [rewrite step2_CL | rewrite step2_ML | rewrite step2_SM
    | rewrite step2_SW | rewrite step2_SP];
    do 3 eexists; (split; [reflexivity |]);
    (split; [simpl; lra |]);
    (split; [lra | apply Hgen; lra]).
Qed.

Lemma pipeline_amax_positive_witness :
  classify 40 20 60 0.01 0.05 0.2 = Classified CL_label
  /\ exists zone amax amax_g, step2 CL_label = Ok (zone, amax, amax_g) /\ 0 < amax_g.
Proof.
  assert (Hc : classify 40 20 60 0.01 0.05 0.2 = Classified CL_label).
  { unfold classify, py_lt, py_gt, py_eq; case_R; first [reflexivity | exfalso; lra]. }
  split; [exact Hc |].
  destruct (pipeline_amax_positive 40 20 60 0.01 0.05 0.2 CL_label Hc)
    as (zone & amax & amax_g & H2 & _ & Hpos & _).
  exists zone, amax, amax_g; split; [exact H2 | exact Hpos].
Defined.

(** C10: [Cn] is always computed without raising, and is 0 when
    [sv' <= 0], so that [N1_60 = sptN * 0 = 0] there. *)
Theorem Cn_total (depth gamma gw_depth : R) (n_value : Z) :
  (exists Cn, Cn_of (sigma_eff depth gamma gw_depth) = Ok Cn /\ 0 <= Cn)
  /\ (sigma_eff depth gamma gw_depth <= 0 ->
      (Cn <- Cn_of (sigma_eff depth gamma gw_depth) ;; Ok (Cn, IZR n_value * Cn))
      = Ok (0, 0)).
Proof.
  split.
  - destruct (Rlt_dec 0 (sigma_eff depth gamma gw_depth)) as [Hs | Hs].
    + rewrite (Cn_of_pos _ Hs); eexists; split; [reflexivity | apply sqrt_pos].
    + rewrite Cn_of_nonpos by lra; eexists; split; [reflexivity | lra].
  - intro Hs; rewrite (Cn_of_nonpos _ Hs); cbn [res_bind].
    rewrite Rmult_0_r; reflexivity.
Qed.

Lemma Cn_total_witness :
  sigma_eff 1 5 0 <= 0
  /\ (Cn <- Cn_of (sigma_eff 1 5 0) ;; Ok (Cn, IZR 3 * Cn)) = Ok (0, 0).
Proof.
  assert (Hs : sigma_eff 1 5 0 <= 0).
  { unfold sigma_eff, sigma_v; destruct (Rlt_dec 0 1); lra. }
  split; [exact Hs | exact (proj2 (Cn_total 1 5 0 3) Hs)].
Defined.

(** * Further properties of the script *)

(** X1: pressing "Reset All Inputs" discards every session value, whatever
    was stored: the rerun leaves both step flags [False], no soil type and
    no [amax_g], and shows nothing beyond step 1's inputs. *)
Theorem run_reset_clears (s : session) (f : form) (H : reset_clicked f = true) :
  run s f = (mk_session (Some false) (Some false) None None,
             mk_output None None false None None).
Proof. unfold run; rewrite H; reflexivity. Qed.

Lemma run_reset_clears_witness :
  reset_clicked (mk_form true true 40 20 60 0.01 0.05 0.2 5 18 2 10) = true
  /\ fst (run (mk_session (Some true) (Some true) (Some CL_label) (Some 0.24))
              (mk_form true true 40 20 60 0.01 0.05 0.2 5 18 2 10))
     = mk_session (Some false) (Some false) None None.
Proof.
  assert (H : reset_clicked (mk_form true true 40 20 60 0.01 0.05 0.2 5 18 2 10) = true)
    by reflexivity.
  split; [exact H |].
  rewrite (run_reset_clears (mk_session (Some true) (Some true) (Some CL_label) (Some 0.24)) _ H).
  reflexivity.
Defined.

(** X2: the session invariant holds on a fresh session and after every run:
    a set step-1 flag comes with a stored soil type among the five labels,
    and a set step-2 flag with a set step-1 flag and a stored [amax_g] in
    {0.10, 0.24, 0.288, 0.36}. *)
Theorem run_preserves_inv :
  session_inv empty_session
  /\ forall s f, session_inv s -> session_inv (fst (run s f)).
Proof.
  assert (H0 : session_inv empty_session) by (split; simpl; discriminate).
  split; [exact H0 |].
  intros s f Hinv; unfold run.
  destruct (reset_clicked f).
  - destruct (run_body_shape empty_session (release_buttons f) H0)
      as (s2 & s3 & oc & o2 & _ & _ & Hi & _ & E); rewrite E; exact Hi.
  - destruct (run_body_shape s f Hinv)
      as (s2 & s3 & oc & o2 & _ & _ & Hi & _ & E); rewrite E; exact Hi.
Qed.

(** X3: from a session satisfying the invariant, with an SPT value of at
    least 1, a run never fails on a missing session key or a dict lookup:
    the only exception it can end in is the [ZeroDivisionError] of the
    liquefaction step, raised exactly when [sv_eff > 0] and [N1_60 = 34]. *)
Theorem run_exc_only_singular (s : session) (f : form) (e : script_exc)
  (Hinv : session_inv s) (Hn : (1 <= f_n_value f)%Z)
  (He : out_exc (snd (run s f)) = Some e) :
  e = PyError ZeroDivisionError
  /\ 0 < sigma_eff (f_depth f) (f_gamma f) (f_gw_depth f)
  /\ IZR (f_n_value f) * sqrt (100 / sigma_eff (f_depth f) (f_gamma f) (f_gw_depth f)) = 34.
Proof.
  assert (H0 : session_inv empty_session) by (split; simpl; discriminate).
  unfold run in He; destruct (reset_clicked f).
  - destruct (run_body_shape empty_session (release_buttons f) H0)
      as (s2 & s3 & oc & o2 & _ & _ & Hi & Hf & E); rewrite E in He.
    exact (stage3_exc (release_buttons f) s3 e Hi Hf Hn He).
  - destruct (run_body_shape s f Hinv)
      as (s2 & s3 & oc & o2 & _ & _ & Hi & Hf & E); rewrite E in He.
    exact (stage3_exc f s3 e Hi Hf Hn He).
Qed.

Lemma evaluate_sample_raises (a : R) :
  evaluate 2.5 10 2.5 17 a = Raise ZeroDivisionError.
Proof.
  assert (Hs : 0 < sigma_eff 2.5 10 2.5) by (rewrite sigma_eff_sample; lra).
  rewrite evaluate_pos by (first [exact Hs | lia]).
  rewrite sqrt_sample.
  destruct (Req_dec_T _ 0) as [_ | C]; [reflexivity | exfalso; apply C; lra].
Qed.

(** A run without a button press on a classified session: step 2 is redone
    from the stored soil type and step 3 evaluates with its [amax_g]. *)
Lemma run_no_click (s : session) (f : form) (t z : string) (amax a : R) (b2 : bool) :
  reset_clicked f = false -> classify_clicked f = false ->
  ss_step1_complete s = Some true -> ss_step2_complete s = Some b2 ->
  ss_soil_type s = Some t -> step2 t = Ok (z, amax, a) ->
  out_exc (snd (run s f))
  = match evaluate (f_depth f) (f_gamma f) (f_gw_depth f) (f_n_value f) a with
    | Ok _ => None
    | Raise e => Some (PyError e)
    end.
Proof.
  intros Hr Hc H1 H2 Ht E.
  destruct s as [b1' b2' t' a']; cbn in H1, H2, Ht; subst.
  unfold run; rewrite Hr; unfold run_body, stage1; rewrite Hc.
  cbn -[step2 evaluate]; rewrite E.
  cbn -[evaluate].
  destruct (evaluate _ _ _ _ a); reflexivity.
Qed.

Lemma run_exc_only_singular_witness :
  session_inv classified_session /\ (1 <= f_n_value singular_form)%Z
  /\ out_exc (snd (run classified_session singular_form)) = Some (PyError ZeroDivisionError)
  /\ IZR (f_n_value singular_form)
     * sqrt (100 / sigma_eff (f_depth singular_form) (f_gamma singular_form)
                              (f_gw_depth singular_form)) = 34.
Proof.
  set (s := classified_session); set (f := singular_form).
  assert (Hinv : session_inv s).
  { split; intros _; [exists CL_label; split; [reflexivity | left; reflexivity] |].
    split; [reflexivity | exists 0.24; split; [reflexivity | right; left; reflexivity]]. }
  assert (Hn : (1 <= f_n_value f)%Z) by (simpl; lia).
  assert (He : out_exc (snd (run s f)) = Some (PyError ZeroDivisionError)).
  { rewrite (run_no_click s f CL_label _ _ _ true eq_refl eq_refl eq_refl eq_refl eq_refl
               step2_CL).
    simpl f_depth; simpl f_gamma; simpl f_gw_depth; simpl f_n_value.
    rewrite evaluate_sample_raises; reflexivity. }
  split; [exact Hinv | split; [exact Hn | split; [exact He |]]].
  exact (proj2 (proj2 (run_exc_only_singular s f _ Hinv Hn He))).
Defined.

(** X4: a classification that fails validation changes nothing in a
    session left by an earlier run: the soil type, both step flags and the
    stored [amax_g] are kept as they were, and the run shows the error
    message together with step 2 for the previously stored soil type, whose
    [amax_g] is the stored one. *)
Theorem run_failed_classify_keeps_previous (s0 : session) (f0 f : form) (m : string)
  (Hinv : session_inv s0)
  (H1 : ss_step1_complete (fst (run s0 f0)) = Some true)
  (Hr : reset_clicked f = false) (Hc : classify_clicked f = true)
  (Herr : classify (f_ll f) (f_pl f) (f_fines f) (f_d10 f) (f_d30 f) (f_d60 f)
          = ClassifyError m) :
  fst (run (fst (run s0 f0)) f) = fst (run s0 f0)
  /\ out_classify (snd (run (fst (run s0 f0)) f)) = Some (ClassifyError m)
  /\ exists t z amax a,
       ss_soil_type (fst (run s0 f0)) = Some t
       /\ ss_amax_g (fst (run s0 f0)) = Some a
       /\ step2 t = Ok (z, amax, a)
       /\ out_step2 (snd (run (fst (run s0 f0)) f)) = Some (z, amax, a).
Proof.
  destruct (run_settled s0 f0 Hinv H1) as (t & z & amax & a & Es & E).
  rewrite Es.
  unfold run; rewrite Hr; unfold run_body, stage1; rewrite Hc, Herr.
  cbn -[step2 stage3]; rewrite E; cbn -[stage3].
  destruct (stage3 f _) as [[w o3] e3].
  split_and; [reflexivity | reflexivity |].
  exists t, z, amax, a; split_and; first [reflexivity | exact E].
Qed.

Lemma run_failed_classify_keeps_previous_witness :
  ss_step1_complete (fst (run empty_session classify_form)) = Some true
  /\ classify 10 20 60 0.01 0.05 0.2 = ClassifyError err_ll_pl
  /\ fst (run (fst (run empty_session classify_form)) bad_limits_form)
     = fst (run empty_session classify_form).
Proof.
  assert (Hok : classify 40 20 60 0.01 0.05 0.2 = Classified CL_label).
  { unfold classify, py_lt, py_gt, py_eq; case_R; first [reflexivity | exfalso; lra]. }
  assert (H1 : ss_step1_complete (fst (run empty_session classify_form)) = Some true).
  { unfold run; cbn [reset_clicked classify_form].
    rewrite run_body_state.
    rewrite (proj1 (stage2_keeps _)).
    unfold stage1; cbn [classify_clicked classify_form f_ll f_pl f_fines f_d10 f_d30 f_d60].
    rewrite Hok; reflexivity. }
  assert (Herr : classify 10 20 60 0.01 0.05 0.2 = ClassifyError err_ll_pl).
  { unfold classify, py_lt; destruct (Rlt_dec 10 20); [reflexivity | lra]. }
  split_and; [exact H1 | exact Herr |].
  exact (proj1 (run_failed_classify_keeps_previous empty_session classify_form
                  bad_limits_form err_ll_pl empty_session_inv H1 eq_refl eq_refl Herr)).
Defined.

(** X5: without a reset, a run never clears progress: a set step-1 or
    step-2 flag stays set, and the stored soil type changes only when the
    classify button is pressed and validation passes. *)
Theorem run_keeps_progress (s : session) (f : form) (Hr : reset_clicked f = false) :
  (ss_step1_complete s = Some true -> ss_step1_complete (fst (run s f)) = Some true)
  /\ (ss_step2_complete s = Some true -> ss_step2_complete (fst (run s f)) = Some true)
  /\ ((classify_clicked f = false \/
       exists m, classify (f_ll f) (f_pl f) (f_fines f) (f_d10 f) (f_d30 f) (f_d60 f)
                 = ClassifyError m) ->
      ss_soil_type (fst (run s f)) = ss_soil_type s).
Proof.
  unfold run; rewrite Hr, run_body_state.
  destruct (init_session_keeps s) as (Ks & _ & K1 & K2).
  destruct (stage1_keeps f (init_session s)) as (L2 & L1 & L0).
  destruct (stage2_keeps (fst (stage1 f (init_session s)))) as (M1 & Ms & M2).
  split_and.
  - intro E; rewrite M1; apply L1, K1, E.
  - intro E; apply M2; rewrite L2; apply K2, E.
  - intro C; rewrite Ms, (L0 C); exact Ks.
Qed.

Lemma run_keeps_progress_witness :
  reset_clicked bad_limits_form = false
  /\ ss_step2_complete (fst (run classified_session bad_limits_form)) = Some true.
Proof.
  assert (Hr : reset_clicked bad_limits_form = false) by reflexivity.
  split; [exact Hr |].
  exact (proj1 (proj2 (run_keeps_progress classified_session bad_limits_form Hr)) eq_refl).
Defined.

(** X6: a successful classification takes effect in the same run: the new
    soil type is stored, both step flags are set, and step 2 is shown and
    stores [amax_g] for the new soil type. *)
Theorem run_classify_success (s : session) (f : form) (t : string)
  (Hr : reset_clicked f = false) (Hc : classify_clicked f = true)
  (Hok : classify (f_ll f) (f_pl f) (f_fines f) (f_d10 f) (f_d30 f) (f_d60 f)
         = Classified t) :
  out_classify (snd (run s f)) = Some (Classified t)
  /\ ss_step1_complete (fst (run s f)) = Some true
  /\ ss_soil_type (fst (run s f)) = Some t
  /\ ss_step2_complete (fst (run s f)) = Some true
  /\ exists z amax a, step2 t = Ok (z, amax, a)
       /\ out_step2 (snd (run s f)) = Some (z, amax, a)
       /\ ss_amax_g (fst (run s f)) = Some a.
Proof.
  destruct (step2_on_labels t (classify_in_labels _ _ _ _ _ _ _ Hok))
    as (z & amax & a & E & _ & _).
  unfold run; rewrite Hr; unfold run_body, stage1; rewrite Hc, Hok.
  destruct s as [[b1 |] [b2 |] t0 a0]; cbn -[step2 stage3]; rewrite E; cbn -[stage3];
    destruct (stage3 f _) as [[w o3] e3]; split_and; try reflexivity;
    exists z, amax, a; split_and; first [exact E | reflexivity].
Qed.

Lemma run_classify_success_witness :
  classify 40 20 60 0.01 0.05 0.2 = Classified CL_label
  /\ ss_soil_type (fst (run empty_session classify_form)) = Some CL_label.
Proof.
  assert (Hok : classify 40 20 60 0.01 0.05 0.2 = Classified CL_label).
  { unfold classify, py_lt, py_gt, py_eq; case_R; first [reflexivity | exfalso; lra]. }
  split; [exact Hok |].
  exact (proj1 (proj2 (proj2 (run_classify_success empty_session classify_form CL_label
                                 eq_refl eq_refl Hok)))).
Defined.

(** X7: with inputs inside the widget bounds, the invalid-effective-stress
    message of line 148 is never shown: unit weight >= 10 exceeds the unit
    weight of water, so [sv_eff > 0] at every depth >= 0.5 and water table
    >= 0. *)
Theorem run_form_never_invalid (s : session) (f : form) (Hf : form_in_range f) :
  out_step3 (snd (run s f)) <> Some InvalidEffectiveStress.
Proof.
  destruct Hf as (_ & _ & _ & _ & _ & _ & [Hd _] & [Hg _] & [Hw _] & _).
  assert (Hpos : 0 < sigma_eff (f_depth f) (f_gamma f) (f_gw_depth f))
    by (apply sigma_eff_form_pos; lra).
  unfold run; destruct (reset_clicked f); [cbn; discriminate |].
  unfold run_body; cbv beta zeta.
  destruct (stage1 f (init_session s)) as [s2 oc].
  destruct (stage2 s2) as [[s3 o2] [e |]]; [cbn; discriminate |].
  pose proof (stage3_not_invalid f s3 Hpos) as N.
  destruct (stage3 f s3) as [[w o3] e3]; exact N.
Qed.

Lemma run_form_never_invalid_witness :
  form_in_range singular_form
  /\ out_step3 (snd (run classified_session singular_form)) <> Some InvalidEffectiveStress.
Proof.
  assert (Hf : form_in_range singular_form)
    by (unfold form_in_range; simpl; split_and; first [lra | lia]).
  exact (conj Hf (run_form_never_invalid classified_session singular_form Hf)).
Defined.

(** X8: with inputs inside the widget bounds (D10, D30, D60 >= 0.001), the
    grain-size error of line 44 is never shown, and classification fails
    exactly when the liquid limit is below the plastic limit. *)
Theorem classify_form_errors (f : form) (Hf : form_in_range f) :
  classify (f_ll f) (f_pl f) (f_fines f) (f_d10 f) (f_d30 f) (f_d60 f)
    <> ClassifyError err_grain
  /\ ((exists m, classify (f_ll f) (f_pl f) (f_fines f) (f_d10 f) (f_d30 f) (f_d60 f)
                 = ClassifyError m) <-> f_ll f < f_pl f).
Proof.
  destruct Hf as (_ & _ & _ & [H10 _] & [H30 _] & [H60 _] & _).
  unfold classify, py_lt, py_gt, py_eq.
  split; [| split; [intros [m E] | intro E]]; case_R;
    try (exfalso; lra); try discriminate; try (eexists; reflexivity); try lra.
Qed.

Lemma classify_form_errors_witness :
  form_in_range bad_limits_form
  /\ classify 10 20 60 0.01 0.05 0.2 <> ClassifyError err_grain.
Proof.
  assert (Hf : form_in_range bad_limits_form)
    by (unfold form_in_range; simpl; split_and; first [lra | lia]).
  exact (conj Hf (proj1 (classify_form_errors bad_limits_form Hf))).
Defined.

(** X9: the stress reduction factor lies in [0.5, 1] at every depth
    >= 0; over the widget's depth range (at most 50 m) the 0.5 floor never
    applies: [rd = 1.0 - 0.00765 * depth], which stays above 0.6. *)
Theorem rd_of_range (depth : R) (Hd : 0 <= depth) :
  0.5 <= rd_of depth <= 1
  /\ (depth <= 50 -> rd_of depth = 1.0 - 0.00765 * depth /\ 0.6 < rd_of depth).
Proof.
  unfold rd_of, Rmax.
  destruct (Rle_dec (1.0 - 0.00765 * depth) 0.5); split; try split; try lra;
    intro H; split; lra.
Qed.

Lemma rd_of_range_witness : 0 <= 5 /\ rd_of 5 = 1.0 - 0.00765 * 5.
Proof.
  assert (Hd : 0 <= 5) by lra.
  split; [exact Hd |].
  assert (H5 : 5 <= 50) by lra.
  exact (proj1 (proj2 (rd_of_range 5 Hd) H5)).
Defined.

(** X10: a deeper water table never lowers the effective stress:
    [sv_eff] is nondecreasing in [gw_depth], and once the water table is
    at or below the layer it equals the total stress. *)
Theorem sigma_eff_mono_gw (depth gamma gw1 gw2 : R) (H : gw1 <= gw2) :
  sigma_eff depth gamma gw1 <= sigma_eff depth gamma gw2.
Proof.
  unfold sigma_eff.
  destruct (Rlt_dec gw1 depth), (Rlt_dec gw2 depth); lra.
Qed.

Lemma sigma_eff_mono_gw_witness : 0 <= 2 /\ sigma_eff 5 18 0 <= sigma_eff 5 18 2.
Proof.
  assert (H : 0 <= 2) by lra.
  exact (conj H (sigma_eff_mono_gw 5 18 0 2 H)).
Defined.

(** X12: classification depends on the Atterberg limits only through the
    plasticity index [LL - PL] (and its sign): shifting both limits by the
    same amount gives the same outcome. *)
Theorem classify_shift_limits (ll pl fines d10 d30 d60 c : R) :
  classify (ll + c) (pl + c) fines d10 d30 d60 = classify ll pl fines d10 d30 d60.
Proof.
  unfold classify.
  replace (ll + c - (pl + c)) with (ll - pl) by ring.
  replace (py_lt (ll + c) (pl + c)) with (py_lt ll pl); [reflexivity |].
  unfold py_lt; destruct (Rlt_dec ll pl), (Rlt_dec (ll + c) (pl + c));
    first [reflexivity | exfalso; lra].
Qed.

Lemma crr_terms (N : R) :
  0 <= N -> N <> 34 ->
  1 / (34 - N) * (34 - N) = 1 /\ 0 < 50 / (10 * N + 45) ^ 2
  /\ 50 / (10 * N + 45) ^ 2 <= 50 / 2025.
Proof.
  intros H0 H34.
  assert (Hq : 2025 <= (10 * N + 45) ^ 2) by (simpl; nra).
  split; [field; lra |].
  split; [apply Rdiv_lt_0_compat; lra |].
  unfold Rdiv; apply Rmult_le_compat_l; [lra |].
  apply Rinv_le_contravar; lra.
Qed.

(** X13: just above the singularity of the CRR formula the code reports
    liquefaction for the densest soils: whenever [34 < N1_60 <= 35] (with
    [sv_eff > 0], a positive [amax_g] and N >= 1) the results are shown with
    a negative CRR and a negative factor of safety, and liquefaction is
    reported likely. *)
Theorem evaluate_dense_negative_crr (depth gamma gw_depth : R) (n_value : Z) (a : R)
  (Hs : 0 < sigma_eff depth gamma gw_depth) (Ha : 0 < a) (Hn : (1 <= n_value)%Z)
  (HN : 34 < IZR n_value * sqrt (100 / sigma_eff depth gamma gw_depth) <= 35) :
  exists r, evaluate depth gamma gw_depth n_value a = Ok (Results r)
    /\ r_CRR r < 0 /\ r_FS r < 0 /\ r_likely r = true.
Proof.
  pose proof (csr_pos depth gamma gw_depth a Hs Ha) as Hcsr.
  rewrite evaluate_pos by assumption.
  set (N := IZR n_value * sqrt (100 / sigma_eff depth gamma gw_depth)) in *.
  set (CSR := 0.65 * a * (sigma_v depth gamma / sigma_eff depth gamma gw_depth)
              * rd_of depth) in *.
  destruct (Req_dec_T (34 - N) 0) as [E | _]; [lra |].
  destruct (Req_dec_T CSR 0) as [E | _]; [lra |].
  destruct (crr_terms N ltac:(lra) ltac:(lra)) as (Hinv & Hc0 & Hc1).
  assert (Ha1 : 1 / (34 - N) <= -1) by nra.
  assert (Hcrr : 1 / (34 - N) + N / 135 + 50 / (10 * N + 45) ^ 2 - 1 / 200 < 0) by lra.
  assert (Hfs : (1 / (34 - N) + N / 135 + 50 / (10 * N + 45) ^ 2 - 1 / 200) / CSR < 0).
  { unfold Rdiv at 4; pose proof (Rinv_0_lt_compat CSR Hcsr); nra. }
  eexists; split; [reflexivity |]; cbn [r_CRR r_FS r_likely].
  split_and; [exact Hcrr | exact Hfs |].
  unfold py_lt; destruct (Rlt_dec _ 1); [reflexivity | lra].
Qed.

Lemma sigma_eff_dense : sigma_eff 5 20 5 = 100.
Proof. unfold sigma_eff, sigma_v; destruct (Rlt_dec 5 5); lra. Qed.

Lemma evaluate_dense_negative_crr_witness :
  34 < IZR 35 * sqrt (100 / sigma_eff 5 20 5) <= 35
  /\ exists r, evaluate 5 20 5 35 0.24 = Ok (Results r) /\ r_likely r = true.
Proof.
  assert (Hs : 0 < sigma_eff 5 20 5) by (rewrite sigma_eff_dense; lra).
  assert (HN : 34 < IZR 35 * sqrt (100 / sigma_eff 5 20 5) <= 35).
  { rewrite sigma_eff_dense; replace (100 / 100) with 1 by field; rewrite sqrt_1; lra. }
  assert (Ha : 0 < 0.24) by lra.
  assert (Hn : (1 <= 35)%Z) by lia.
  destruct (evaluate_dense_negative_crr 5 20 5 35 0.24 Hs Ha Hn HN)
    as (r & E & _ & _ & L).
  exact (conj HN (ex_intro _ r (conj E L))).
Defined.

(** X14: below the singularity ([0 <= N1_60 < 34], which N >= 1 gives the
    lower half of) with [sv_eff > 0] and a positive [amax_g], the results are
    shown with a positive CRR and a positive factor of safety. *)
Theorem evaluate_crr_positive (depth gamma gw_depth : R) (n_value : Z) (a : R)
  (Hs : 0 < sigma_eff depth gamma gw_depth) (Ha : 0 < a) (Hn : (1 <= n_value)%Z)
  (HN : IZR n_value * sqrt (100 / sigma_eff depth gamma gw_depth) < 34) :
  exists r, evaluate depth gamma gw_depth n_value a = Ok (Results r)
    /\ 0 < r_CRR r /\ 0 < r_FS r.
Proof.
  pose proof (csr_pos depth gamma gw_depth a Hs Ha) as Hcsr.
  assert (H0 : 0 <= IZR n_value * sqrt (100 / sigma_eff depth gamma gw_depth)).
  { apply Rmult_le_pos; [apply IZR_le; lia | apply sqrt_pos]. }
  rewrite evaluate_pos by assumption.
  set (N := IZR n_value * sqrt (100 / sigma_eff depth gamma gw_depth)) in *.
  set (CSR := 0.65 * a * (sigma_v depth gamma / sigma_eff depth gamma gw_depth)
              * rd_of depth) in *.
  destruct (Req_dec_T (34 - N) 0) as [E | _]; [lra |].
  destruct (Req_dec_T CSR 0) as [E | _]; [lra |].
  destruct (crr_terms N H0 ltac:(lra)) as (Hinv & Hc0 & _).
  assert (Ha1 : 1 / 34 <= 1 / (34 - N)).
  { unfold Rdiv; rewrite !Rmult_1_l; apply Rinv_le_contravar; lra. }
  assert (Hcrr : 0 < 1 / (34 - N) + N / 135 + 50 / (10 * N + 45) ^ 2 - 1 / 200) by lra.
  eexists; split; [reflexivity |]; cbn [r_CRR r_FS].
  split; [exact Hcrr |].
  apply Rdiv_lt_0_compat; assumption.
Qed.

Lemma evaluate_crr_positive_witness :
  IZR 10 * sqrt (100 / sigma_eff 2.5 10 2.5) < 34
  /\ exists r, evaluate 2.5 10 2.5 10 0.24 = Ok (Results r) /\ 0 < r_FS r.
Proof.
  assert (Hs : 0 < sigma_eff 2.5 10 2.5) by (rewrite sigma_eff_sample; lra).
  assert (HN : IZR 10 * sqrt (100 / sigma_eff 2.5 10 2.5) < 34)
    by (rewrite sqrt_sample; lra).
  assert (Ha : 0 < 0.24) by lra.
  assert (Hn : (1 <= 10)%Z) by lia.
  destruct (evaluate_crr_positive 2.5 10 2.5 10 0.24 Hs Ha Hn HN) as (r & E & _ & F).
  exact (conj HN (ex_intro _ r (conj E F))).
Defined.
